(** * The tab navigation shell: CustomTabBar, TabLayout and the colour table

    A shallow embedding of [components/ui/CustomTabBar.tsx],
    [app/(tabs)/_layout.tsx] and [constants/Colors.ts].

    Strings are [string]; the route list of the navigation state is a
    [list Route] read with stdpp's lookup and mapped with [imap], the
    counterpart of [state.routes.map((route, index) => ...)]; calls into
    the navigation object and the haptics module are recorded, in order,
    by a small logging monad. *)

From Stdlib Require Import ZArith QArith.
From stdpp Require Import base list strings.

Local Open Scope string_scope.
Local Open Scope list_scope.

(** ** JavaScript values that cross the component boundary *)

(** Route params, JSX props and style declarations are plain JS values.
    Numbers are rationals, so that [0.1] and [0.3] are exact. *)
Local Unset Elimination Schemes.
Inductive JsValue : Type :=
  | JsUndefined
  | JsBool (b : bool)
  | JsNum (q : Q)
  | JsStr (s : string)
  | JsObj (fields : list (string * JsValue)).
Local Set Elimination Schemes.

(** An integer literal. *)
Definition JsInt (n : Z) : JsValue := JsNum (inject_Z n).

(** A value that may be [null] or [undefined], as the result of a hook. *)
Inductive Nullish (A : Type) : Type :=
  | IsNull
  | IsUndefined
  | IsValue (a : A).
Arguments IsNull {A}.
Arguments IsUndefined {A}.
Arguments IsValue {A} a.

(** [x ?? d] *)
Definition nullish_coalesce {A : Type} (x : Nullish A) (d : A) : A :=
  match x with
  | IsNull | IsUndefined => d
  | IsValue a => a
  end.
Infix "??" := nullish_coalesce (at level 45, left associativity).

(** ** constants/Colors.ts *)

Module ColorTable.

Record Palette : Type := {
  text : string;
  background : string;
  tint : string;
  icon : string;
  tabIconDefault : string;
  tabIconSelected : string;
  tabBarBackground : string;
  primaryOrange : string
}.

Definition tintColorLight : string := "#FF6B35".
Definition tintColorDark : string := "#FF6B35".

(** The two keys of the [Colors] object; also the non-null results of
    [useColorScheme]. *)
Inductive ColorScheme : Type := light | dark.

Definition Colors (scheme : ColorScheme) : Palette :=
  match scheme with
  | light =>
      {| text := "#11181C";
         background := "#fff";
         tint := tintColorLight;
         icon := "#8E8E93";
         tabIconDefault := "#8E8E93";
         tabIconSelected := "#000000";
         tabBarBackground := "#FFFFFF";
         primaryOrange := "#FF6B35" |}
  | dark =>
      {| text := "#ECEDEE";
         background := "#151718";
         tint := tintColorDark;
         icon := "#8E8E93";
         tabIconDefault := "#8E8E93";
         tabIconSelected := "#FFFFFF";
         tabBarBackground := "#1C1C1E";
         primaryOrange := "#FF6B35" |}
  end.

(** The type of what [useColorScheme()] returns. *)
Definition ColorSchemeName : Type := Nullish ColorScheme.

End ColorTable.

(** ** The route-label / icon mapper of CustomTabBar.tsx *)

(** [switch (routeName)] compares with strict equality, case after case. *)
Definition getIconName (routeName : string) : string :=
  if String.eqb routeName "index" then "house.fill"
  else if String.eqb routeName "recipients" then "person.2.fill"
  else if String.eqb routeName "send-money" then "paperplane.fill"
  else if String.eqb routeName "track" then "arrow.left.arrow.right"
  else if String.eqb routeName "locations" then "location.fill"
  else "house.fill".

Definition getTabLabel (routeName : string) : string :=
  if String.eqb routeName "index" then "Home"
  else if String.eqb routeName "recipients" then "Recipients"
  else if String.eqb routeName "send-money" then "Send Money"
  else if String.eqb routeName "track" then "Track"
  else if String.eqb routeName "locations" then "Locations"
  else routeName.

(** The five route keys the two switches name. *)
Definition knownRoutes : list string :=
  ["index"; "recipients"; "send-money"; "track"; "locations"].

(** ** The host: hooks, platform constants and native modules *)

Module Haptics.

(** expo-haptics' [ImpactFeedbackStyle]. *)
Inductive ImpactFeedbackStyle : Type := Light | Medium | Heavy | Soft | Rigid.

(** How the promise returned by [impactAsync] settles. *)
Inductive Settled : Type := Fulfilled | Rejected.

End Haptics.

(** react-native's [Platform.OS]. *)
Inductive PlatformOS : Type := ios | android | windows | macos | web.

Record Host : Type := {
  useColorScheme : ColorTable.ColorSchemeName;
  Platform_OS : PlatformOS;
  (** [process.env.EXPO_OS]; [None] is [undefined]. *)
  EXPO_OS : option string;
  (** The fate of the promise of each [Haptics.impactAsync] call. *)
  impactAsync_settles : Haptics.ImpactFeedbackStyle -> Haptics.Settled
}.

(** ** The navigation engine's side of BottomTabBarProps *)

Module Nav.

Record Route : Type := {
  key : string;
  name : string;
  (** [undefined] when the route carries no params *)
  params : JsValue
}.

Record TabNavigationState : Type := {
  index : nat;
  routes : list Route
}.

(** The argument of [navigation.emit]. *)
Record EmitOptions : Type := {
  type : string;
  target : string;
  canPreventDefault : bool
}.

(** The event object [navigation.emit] hands back, after the listeners ran. *)
Record EventArg : Type := {
  defaultPrevented : bool
}.

(** The per-route options of the descriptor registry. *)
Record Descriptor : Type := {
  title : string;
  tabBarLabel : string
}.

(** The navigation object: what its listeners answer to an emitted
    event. Its [navigate] has no result; the call itself is logged. *)
Record Navigation : Type := {
  listeners : EmitOptions -> EventArg
}.

Record BottomTabBarProps : Type := {
  state : TabNavigationState;
  descriptors : list (string * Descriptor);
  navigation : Navigation
}.

End Nav.
Import Nav.

(** ** Calls out of the component, and the monad that logs them *)

Inductive Call : Type :=
  | HapticsImpactAsync (style : Haptics.ImpactFeedbackStyle)
  | NavigationEmit (e : EmitOptions)
  | NavigationNavigate (routeName : string) (routeParams : JsValue).

(** A computation returns its value and the calls it made, oldest first. *)
Record M (A : Type) : Type := Ran {
  result : A;
  calls : list Call
}.
Arguments Ran {A} result calls.
Arguments result {A} m.
Arguments calls {A} m.

#[global] Instance M_ret : MRet M := fun A a => Ran a [].

#[global] Instance M_bind : MBind M := fun A B k m =>
  let later := k (result m) in
  Ran (result later) (calls m ++ calls later).

(** [Haptics.impactAsync(style)]: returns the promise at once. *)
Definition Haptics_impactAsync (host : Host) (style : Haptics.ImpactFeedbackStyle)
  : M Haptics.Settled :=
  Ran (impactAsync_settles host style) [HapticsImpactAsync style].

(** [navigation.emit(e)] *)
Definition navigation_emit (nav : Navigation) (e : EmitOptions) : M EventArg :=
  Ran (listeners nav e) [NavigationEmit e].

(** [navigation.navigate(name, params)] *)
Definition navigation_navigate (nav : Navigation) (routeName : string)
  (routeParams : JsValue) : M unit :=
  Ran tt [NavigationNavigate routeName routeParams].

(** ** The style sheet of CustomTabBar.tsx *)

Definition Style : Type := list (string * JsValue).

(** [Platform.select({ ios: ..., android: ... })]: [undefined] elsewhere,
    and spreading [undefined] adds no declaration. *)
Definition Platform_select (os : PlatformOS) (for_ios for_android : Style) : Style :=
  match os with
  | ios => for_ios
  | android => for_android
  | _ => []
  end.

Definition is_ios (os : PlatformOS) : bool :=
  match os with ios => true | _ => false end.

Inductive StyleName : Type :=
  | tabBar | topBorder | tabContainer | tabItem | centerButton
  | centerButtonContainer | regularTabContent | tabLabel | centerButtonLabel.

#[global] Instance StyleName_eq_dec : EqDecision StyleName.
Proof. solve_decision. Defined.

(** [StyleSheet.create({ ... })] *)
Definition styles (os : PlatformOS) (n : StyleName) : Style :=
  match n with
  | tabBar =>
      [ ("position", JsStr "absolute");
        ("bottom", JsInt 0);
        ("left", JsInt 0);
        ("right", JsInt 0);
        ("height", JsInt (if is_ios os then 88 else 68));
        ("paddingBottom", JsInt (if is_ios os then 34 else 8));
        ("paddingTop", JsInt 8) ]
      ++ Platform_select os
           [ ("shadowColor", JsStr "#000");
             ("shadowOffset", JsObj [("width", JsInt 0); ("height", JsInt (-1))]);
             ("shadowOpacity", JsNum (1 # 10));
             ("shadowRadius", JsInt 4) ]
           [ ("elevation", JsInt 8) ]
  | topBorder =>
      [ ("position", JsStr "absolute");
        ("top", JsInt 0);
        ("left", JsInt 0);
        ("right", JsInt 0);
        ("height", JsInt 1);
        ("backgroundColor", JsStr "#E5E5E7") ]
  | tabContainer =>
      [ ("flex", JsInt 1);
        ("flexDirection", JsStr "row");
        ("alignItems", JsStr "center");
        ("justifyContent", JsStr "space-around");
        ("paddingHorizontal", JsInt 16) ]
  | tabItem =>
      [ ("flex", JsInt 1);
        ("alignItems", JsStr "center");
        ("justifyContent", JsStr "center");
        ("paddingVertical", JsInt 4) ]
  | centerButton =>
      [ ("alignItems", JsStr "center");
        ("justifyContent", JsStr "flex-start");
        ("marginTop", JsInt (-8)) ]
  | centerButtonContainer =>
      [ ("width", JsInt 56);
        ("height", JsInt 56);
        ("borderRadius", JsInt 28);
        ("alignItems", JsStr "center");
        ("justifyContent", JsStr "center");
        ("marginBottom", JsInt 4) ]
      ++ Platform_select os
           [ ("shadowColor", JsStr "#FF6B35");
             ("shadowOffset", JsObj [("width", JsInt 0); ("height", JsInt 2)]);
             ("shadowOpacity", JsNum (3 # 10));
             ("shadowRadius", JsInt 4) ]
           [ ("elevation", JsInt 6) ]
  | regularTabContent =>
      [ ("alignItems", JsStr "center");
        ("justifyContent", JsStr "center");
        ("marginBottom", JsInt 4) ]
  | tabLabel =>
      [ ("fontSize", JsInt 10);
        ("fontWeight", JsStr "500");
        ("textAlign", JsStr "center");
        ("marginTop", JsInt 2) ]
  | centerButtonLabel =>
      [ ("fontSize", JsInt 10);
        ("fontWeight", JsStr "600") ]
  end.

(** One entry of a [style] prop: a sheet entry [styles.n], an inline
    object, or the [false] that [cond && styles.n] leaves behind. *)
Inductive StyleEntry : Type :=
  | FromSheet (n : StyleName)
  | Inline (s : Style)
  | StyleFalse.

(** [cond && styles.n] *)
Definition and_style (cond : bool) (n : StyleName) : StyleEntry :=
  if cond then FromSheet n else StyleFalse.

(** ** The tree CustomTabBar renders *)

Record IconSymbol : Type := {
  icon_name : string;
  icon_size : Z;
  icon_color : string
}.

(** The [View] around the icon. *)
Record IconView : Type := {
  iconView_style : list StyleEntry;
  iconView_child : IconSymbol
}.

(** The [Text] under the icon. *)
Record LabelText : Type := {
  label_style : list StyleEntry;
  numberOfLines : Z;
  label_children : string
}.

(** One tab item. *)
Record TouchableOpacity : Type := {
  item_key : string;
  onPress : unit -> M unit;
  item_style : list StyleEntry;
  accessible : bool;
  accessibilityRole : string;
  accessibilityLabel : string;
  accessibilityState_selected : bool;
  item_icon : IconView;
  item_label : LabelText
}.

(** The bar: the outer [View], the border [View] and the container
    [View] with one item per route. A [style] prop that is a single
    value is a one-entry list. *)
Record TabBarView : Type := {
  bar_style : list StyleEntry;
  border_style : list StyleEntry;
  container_style : list StyleEntry;
  bar_items : list TouchableOpacity
}.

(** ** components/ui/CustomTabBar.tsx *)

Section CustomTabBar.

Variable host : Host.
Variable props : BottomTabBarProps.

Definition colorScheme : ColorTable.ColorSchemeName := useColorScheme host.
Definition colors : ColorTable.Palette :=
  ColorTable.Colors (colorScheme ?? ColorTable.light).

(** [process.env.EXPO_OS === 'ios'] *)
Definition EXPO_OS_is_ios : bool :=
  match EXPO_OS host with
  | Some os => String.eqb os "ios"
  | None => false
  end.

Definition handleTabPress (route : Route) (index : nat) (isFocused : bool)
  : M unit :=
  (if EXPO_OS_is_ios then
     let feedbackStyle :=
       if (index =? 2)%nat then Haptics.Medium else Haptics.Light in
     Haptics_impactAsync host feedbackStyle ;; mret tt
   else mret tt) ;;
  event ← navigation_emit (navigation props)
            {| type := "tabPress";
               target := key route;
               canPreventDefault := true |} ;
  if negb isFocused && negb (defaultPrevented event) then
    navigation_navigate (navigation props) (name route) (params route)
  else mret tt.

(** The body of [state.routes.map((route, index) => ...)]. *)
Definition renderTabItem (index : nat) (route : Route) : TouchableOpacity :=
  let isFocused := (Nav.index (state props) =? index)%nat in
  let isCenterButton := (index =? 2)%nat in
  let iconName := getIconName (name route) in
  let label := getTabLabel (name route) in
  {| item_key := key route;
     onPress := fun _ => handleTabPress route index isFocused;
     item_style := [FromSheet tabItem; and_style isCenterButton centerButton];
     accessible := true;
     accessibilityRole := "button";
     accessibilityLabel := (label ++ " tab")%string;
     accessibilityState_selected := isFocused;
     item_icon :=
       if isCenterButton then
         {| iconView_style :=
              [ FromSheet centerButtonContainer;
                Inline [("backgroundColor",
                         JsStr (ColorTable.primaryOrange colors))] ];
            iconView_child :=
              {| icon_name := iconName;
                 icon_size := 24;
                 icon_color := "#FFFFFF" |} |}
       else
         {| iconView_style := [FromSheet regularTabContent];
            iconView_child :=
              {| icon_name := iconName;
                 icon_size := 24;
                 icon_color :=
                   if isFocused then ColorTable.tabIconSelected colors
                   else ColorTable.tabIconDefault colors |} |};
     item_label :=
       {| label_style :=
            [ FromSheet tabLabel;
              Inline [("color",
                       JsStr (if isCenterButton then
                                ColorTable.tabIconSelected colors
                              else if isFocused then
                                ColorTable.tabIconSelected colors
                              else ColorTable.tabIconDefault colors))];
              and_style isCenterButton centerButtonLabel ];
          numberOfLines := 1;
          label_children := label |} |}.

Definition CustomTabBar : TabBarView :=
  {| bar_style :=
       [ FromSheet tabBar;
         Inline [("backgroundColor",
                  JsStr (ColorTable.tabBarBackground colors))] ];
     border_style := [FromSheet topBorder];
     container_style := [FromSheet tabContainer];
     bar_items := imap renderTabItem (routes (state props)) |}.

End CustomTabBar.

(** ** app/(tabs)/_layout.tsx *)

Module Layout.

(** A JSX element's props, in the order they are written. *)
Definition Props : Type := list (string * JsValue).

(** The [<Tabs>] element: its two props and its children. *)
Record TabsElement : Type := {
  tabBar : BottomTabBarProps -> TabBarView;
  screenOptions : Props;
  children : list Props
}.

Definition TabLayout (host : Host) : TabsElement :=
  let colorScheme := useColorScheme host in
  {| tabBar := fun props => CustomTabBar host props;
     screenOptions :=
       [ ("headerShown", JsBool false);
         ("tabBarActiveTintColor",
          JsStr (ColorTable.tabIconSelected
                   (ColorTable.Colors (colorScheme ?? ColorTable.light))));
         ("tabBarInactiveTintColor",
          JsStr (ColorTable.tabIconDefault
                   (ColorTable.Colors (colorScheme ?? ColorTable.light)))) ];
     children :=
       [ [ ("name", JsStr "index");
           ("options", JsObj [ ("title", JsStr "Home");
                               ("tabBarLabel", JsStr "Home") ]) ];
         [ ("name", JsStr "recipients");
           ("options", JsObj [ ("title", JsStr "Recipients");
                               ("tabBarLabel", JsStr "Recipients") ]) ];
         [ ("name", JsStr "send-money");
           ("options", JsObj [ ("title", JsStr "Send Money");
                               ("tabBarLabel", JsStr "Send Money") ]) ];
         [ ("name", JsStr "track");
           ("options", JsObj [ ("title", JsStr "Track");
                               ("tabBarLabel", JsStr "Track") ]) ];
         [ ("name", JsStr "locations");
           ("options", JsObj [ ("title", JsStr "Locations");
                               ("tabBarLabel", JsStr "Locations") ]) ] ] |}.

End Layout.

(** ** Observations on a run and on a rendered bar *)

(** The navigation-switch requests among the calls, in order. *)
Definition navigateRequests (l : list Call) : list (string * JsValue) :=
  omap (fun c => match c with
                 | NavigationNavigate n p => Some (n, p)
                 | _ => None
                 end) l.

(** The events handed to [navigation.emit], in order. *)
Definition emittedEvents (l : list Call) : list EmitOptions :=
  omap (fun c => match c with NavigationEmit e => Some e | _ => None end) l.

(** The haptic pulses requested, in order. *)
Definition hapticPulses (l : list Call) : list Haptics.ImpactFeedbackStyle :=
  omap (fun c => match c with HapticsImpactAsync s => Some s | _ => None end) l.

Definition isHaptic (c : Call) : bool :=
  match c with HapticsImpactAsync _ => true | _ => false end.

Definition isNavigate (c : Call) : bool :=
  match c with NavigationNavigate _ _ => true | _ => false end.

(** The user presses the [i]-th item of the bar, if there is one. *)
Definition press (bar : TabBarView) (i : nat) : option (M unit) :=
  item ← bar_items bar !! i ; Some (onPress item tt).

(** The event [handleTabPress] emits for a route. *)
Definition tabPressEvent (route : Route) : EmitOptions :=
  {| type := "tabPress"; target := key route; canPreventDefault := true |}.

Definition isSheet (n : StyleName) (e : StyleEntry) : bool :=
  match e with
  | FromSheet m => bool_decide (m = n)
  | _ => false
  end.

(** An item is elevated when its style lists [styles.centerButton] and
    its icon sits in the [styles.centerButtonContainer] view filled with
    the accent colour. *)
Definition isElevated (accent : string) (item : TouchableOpacity) : bool :=
  existsb (isSheet centerButton) (item_style item)
  && match iconView_style (item_icon item) with
     | [FromSheet centerButtonContainer; Inline [(prop, JsStr c)]] =>
         String.eqb prop "backgroundColor" && String.eqb c accent
     | _ => false
     end.

(** The positions of the elevated items of a bar. *)
Definition elevatedPositions (accent : string) (bar : TabBarView) : list nat :=
  List.filter
    (fun i => match bar_items bar !! i with
              | Some item => isElevated accent item
              | None => false
              end)
    (seq 0 (length (bar_items bar))).

(** The neutral icon-plus-label layout, coloured by [tintOf focused]. *)
Definition isNeutral (colours : ColorTable.Palette) (focused : bool)
  (item : TouchableOpacity) : Prop :=
  let tintOf :=
    if focused then ColorTable.tabIconSelected colours
    else ColorTable.tabIconDefault colours in
  item_style item = [FromSheet tabItem; StyleFalse]
  /\ iconView_style (item_icon item) = [FromSheet regularTabContent]
  /\ icon_color (iconView_child (item_icon item)) = tintOf
  /\ label_style (item_label item)
     = [FromSheet tabLabel; Inline [("color", JsStr tintOf)]; StyleFalse].

(** The value a style sheet entry declares for a property. *)
Definition declared (s : Style) (prop : string) : option JsValue :=
  snd <$> List.find (fun d => String.eqb (fst d) prop) s.

(** The Route-Label/Icon Mapper: the label and the icon of a route key. *)
Definition routeMapper (routeName : string) : string * string :=
  (getTabLabel routeName, getIconName routeName).

(** The documented table of (key, (label, icon)) pairs, as the
    specification lists it. *)
Definition documentedPairs : list (string * (string * string)) :=
  [ ("index", ("Home", "house.fill"));
    ("recipients", ("Recipients", "person.2.fill"));
    ("send-money", ("Send Money", "paperplane.fill"));
    ("track", ("Track", "arrow.left.arrow.right"));
    ("locations", ("Locations", "location.fill")) ].

(** ** Sample hosts, navigation objects and states *)

(** The same props with another active index. *)
Definition withActive (props : BottomTabBarProps) (active : nat)
  : BottomTabBarProps :=
  {| state := {| Nav.index := active; routes := routes (state props) |};
     descriptors := descriptors props;
     navigation := navigation props |}.

(** The same host with another fate for the haptics promises. *)
Definition withSettles (host : Host)
  (settles : Haptics.ImpactFeedbackStyle -> Haptics.Settled) : Host :=
  {| useColorScheme := useColorScheme host;
     Platform_OS := Platform_OS host;
     EXPO_OS := EXPO_OS host;
     impactAsync_settles := settles |}.

Definition iosHost : Host :=
  {| useColorScheme := IsValue ColorTable.dark;
     Platform_OS := ios;
     EXPO_OS := Some "ios";
     impactAsync_settles := fun _ => Haptics.Fulfilled |}.

Definition androidHost : Host :=
  {| useColorScheme := IsNull;
     Platform_OS := android;
     EXPO_OS := Some "android";
     impactAsync_settles := fun _ => Haptics.Rejected |}.

Definition homeRoute : Route :=
  {| key := "index-k1"; name := "index"; params := JsUndefined |}.
Definition recipientsRoute : Route :=
  {| key := "recipients-k2"; name := "recipients"; params := JsUndefined |}.
Definition sendMoneyRoute : Route :=
  {| key := "send-money-k3"; name := "send-money";
     params := JsObj [("amount", JsInt 25); ("currency", JsStr "EUR")] |}.
Definition trackRoute : Route :=
  {| key := "track-k4"; name := "track"; params := JsUndefined |}.
Definition locationsRoute : Route :=
  {| key := "locations-k5"; name := "locations"; params := JsUndefined |}.

Definition fiveRoutes : list Route :=
  [homeRoute; recipientsRoute; sendMoneyRoute; trackRoute; locationsRoute].

(** Listeners that never veto, and listeners that always do. *)
Definition permissive : Navigation :=
  {| listeners := fun _ => {| defaultPrevented := false |} |}.
Definition vetoing : Navigation :=
  {| listeners := fun _ => {| defaultPrevented := true |} |}.

Definition propsOf (nav : Navigation) (active : nat) (rs : list Route)
  : BottomTabBarProps :=
  {| state := {| Nav.index := active; routes := rs |};
     descriptors := [];
     navigation := nav |}.

(** The [options] keys of a [<Tabs.Screen>] element. *)
Definition optionKeys (screen : Layout.Props) : option (list string) :=
  match declared screen "options" with
  | Some (JsObj fields) => Some (map fst fields)
  | _ => None
  end.

(** A state with two routes only. *)
Definition twoRoutes : list Route := [homeRoute; recipientsRoute].

(** ** The placeholder screens of app/(tabs)

    recipients.tsx, send-money.tsx, track.tsx and locations.tsx: each
    declares the same style sheet and returns a tree of the same shape. *)

Module Screens.

Inductive StyleName : Type :=
  | container | content | title | description
  | placeholderContainer | placeholderText.

(** [StyleSheet.create({ ... })], the same in the four files. *)
Definition styles (n : StyleName) : Style :=
  match n with
  | container => [ ("flex", JsInt 1) ]
  | content =>
      [ ("flex", JsInt 1);
        ("padding", JsInt 20);
        ("paddingTop", JsInt 60) ]
  | title =>
      [ ("fontSize", JsInt 32);
        ("fontWeight", JsStr "bold");
        ("marginBottom", JsInt 16) ]
  | description =>
      [ ("fontSize", JsInt 16);
        ("opacity", JsNum (8 # 10));
        ("marginBottom", JsInt 32);
        ("lineHeight", JsInt 24) ]
  | placeholderContainer =>
      [ ("padding", JsInt 24);
        ("borderRadius", JsInt 12);
        ("marginBottom", JsInt 20);
        ("alignItems", JsStr "center") ]
  | placeholderText =>
      [ ("marginTop", JsInt 8);
        ("textAlign", JsStr "center");
        ("opacity", JsNum (6 # 10)) ]
  end.

(** A [<ThemedText>]: its [type] and [style] props, when given, and its
    text. *)
Record ThemedText : Type := {
  text_type : option string;
  text_style : option StyleName;
  text_children : string
}.

(** A placeholder card: a [<ThemedView>] with a heading and a caption. *)
Record Card : Type := {
  card_style : StyleName;
  card_heading : ThemedText;
  card_caption : ThemedText
}.

(** The tree a screen returns: the outer [<ThemedView>], the
    [<ScrollView>], the content [<ThemedView>] and its children. *)
Record Screen : Type := {
  outer_style : StyleName;
  contentInsetAdjustmentBehavior : string;
  inner_style : StyleName;
  heading : ThemedText;
  summary : ThemedText;
  cards : list Card
}.

Definition titleText (s : string) : ThemedText :=
  {| text_type := Some "title"; text_style := Some title; text_children := s |}.

Definition descriptionText (s : string) : ThemedText :=
  {| text_type := None; text_style := Some description; text_children := s |}.

Definition card (head caption : string) : Card :=
  {| card_style := placeholderContainer;
     card_heading :=
       {| text_type := Some "subtitle"; text_style := None;
          text_children := head |};
     card_caption :=
       {| text_type := None; text_style := Some placeholderText;
          text_children := caption |} |}.

Definition shell (t d : string) (cs : list Card) : Screen :=
  {| outer_style := container;
     contentInsetAdjustmentBehavior := "automatic";
     inner_style := content;
     heading := titleText t;
     summary := descriptionText d;
     cards := cs |}.

Definition RecipientsScreen : Screen :=
  shell "Recipients"
    "Manage your recipients and contacts for easy money transfers."
    [ card "👥 Recipients List" "Your saved recipients will appear here" ].

Definition SendMoneyScreen : Screen :=
  shell "Send Money"
    "Send money quickly and securely to friends, family, or businesses."
    [ card "💸 Quick Transfer" "Select recipient and amount to send money";
      card "📱 Recent Transfers" "Your recent money transfers will appear here" ].

Definition TrackScreen : Screen :=
  shell "Track"
    "Track your money transfers and view transaction history."
    [ card "🔄 Active Transfers" "Track your ongoing money transfers";
      card "📊 Transaction History" "View completed and pending transactions" ].

Definition LocationsScreen : Screen :=
  shell "Locations"
    "Find nearby ATMs, branches, and service locations."
    [ card "📍 Nearby Locations" "Find ATMs and service centers near you";
      card "🗺️ Interactive Map" "View locations on an interactive map" ].

(** The screen files by the route each file name stands for. *)
Definition byRoute : list (string * Screen) :=
  [ ("recipients", RecipientsScreen);
    ("send-money", SendMoneyScreen);
    ("track", TrackScreen);
    ("locations", LocationsScreen) ].

End Screens.

(** ** Further observations *)

(** The positions of the items marked selected for accessibility. *)
Definition selectedPositions (bar : TabBarView) : list nat :=
  List.filter
    (fun i => match bar_items bar !! i with
              | Some item => accessibilityState_selected item
              | None => false
              end)
    (seq 0 (length (bar_items bar))).

(** The calls other than haptic pulses, in order. *)
Definition nonHaptic (l : list Call) : list Call :=
  List.filter (fun c => negb (isHaptic c)) l.

(** The same props with another descriptor registry. *)
Definition withDescriptors (props : BottomTabBarProps)
  (ds : list (string * Descriptor)) : BottomTabBarProps :=
  {| state := state props; descriptors := ds; navigation := navigation props |}.

(** What an item looks like: its style, its icon view and its label. *)
Definition look (item : TouchableOpacity)
  : list StyleEntry * IconView * LabelText :=
  (item_style item, item_icon item, item_label item).

(** The [name] prop of a [<Tabs.Screen>] element. *)
Definition screenName (screen : Layout.Props) : option string :=
  match declared screen "name" with
  | Some (JsStr n) => Some n
  | _ => None
  end.

(** An option of a [<Tabs.Screen>] element, when it is a string. *)
Definition screenOption (screen : Layout.Props) (opt : string) : option string :=
  match declared screen "options" with
  | Some (JsObj fields) =>
      match declared fields opt with
      | Some (JsStr v) => Some v
      | _ => None
      end
  | _ => None
  end.

(** The names of the screens a layout declares, in order. *)
Definition screenNames (t : Layout.TabsElement) : list string :=
  omap screenName (Layout.children t).

(** The five icon names of the mapper. *)
Definition tabIcons : list string :=
  [ "house.fill"; "person.2.fill"; "paperplane.fill";
    "arrow.left.arrow.right"; "location.fill" ].

(** * Properties *)

(** ** The mapper *)

Lemma unknown_route_eqb (k : string) :
  k ∉ knownRoutes ->
  String.eqb k "index" = false
  /\ String.eqb k "recipients" = false
  /\ String.eqb k "send-money" = false
  /\ String.eqb k "track" = false
  /\ String.eqb k "locations" = false.
Proof.
  unfold knownRoutes. rewrite !not_elem_of_cons.
  intros (H1 & H2 & H3 & H4 & H5 & _).
  repeat split; apply String.eqb_neq; assumption.
Qed.

Lemma getTabLabel_default (k : string) : k ∉ knownRoutes -> getTabLabel k = k.
Proof.
  intros (E1 & E2 & E3 & E4 & E5)%unknown_route_eqb.
  unfold getTabLabel. rewrite E1, E2, E3, E4, E5. reflexivity.
Qed.

Lemma getIconName_default (k : string) :
  k ∉ knownRoutes -> getIconName k = "house.fill".
Proof.
  intros (E1 & E2 & E3 & E4 & E5)%unknown_route_eqb.
  unfold getIconName. rewrite E1, E2, E3, E4, E5. reflexivity.
Qed.

(** C1, as stated, fails: the key ["settings"] is none of the five, and
    the mapper answers (["settings"], ["house.fill"]), whose label is
    not ["Home"]. *)
Lemma C1_unknown_key_label_is_not_Home :
  ("settings" ∉ knownRoutes)
  /\ routeMapper "settings" = ("settings", "house.fill")
  /\ routeMapper "settings" <> ("Home", "house.fill").
Proof.
  split; [| split].
  - unfold knownRoutes. rewrite !not_elem_of_cons.
    repeat split; try discriminate. apply not_elem_of_nil.
  - reflexivity.
  - discriminate.
Qed.

(** C1, amended: the mapper is a total function; on each of the five
    documented keys it returns the documented (label, icon) pair, and on
    any other key it returns that key itself as the label together with
    the Home icon ["house.fill"]. *)
Theorem C1_mapper_pairs (k : string) :
  (forall pair, (k, pair) ∈ documentedPairs -> routeMapper k = pair)
  /\ (k ∉ knownRoutes -> routeMapper k = (k, "house.fill")).
Proof.
  split.
  - intros pair. unfold documentedPairs.
    rewrite !elem_of_cons, elem_of_nil.
    intros [E|[E|[E|[E|[E|[]]]]]]; inversion E; reflexivity.
  - intros Hk. unfold routeMapper.
    rewrite getTabLabel_default, getIconName_default by assumption.
    reflexivity.
Qed.

Lemma C1_mapper_pairs_witness :
  ("track", ("Track", "arrow.left.arrow.right")) ∈ documentedPairs
  /\ routeMapper "track" = ("Track", "arrow.left.arrow.right")
  /\ ("profile" ∉ knownRoutes)
  /\ routeMapper "profile" = ("profile", "house.fill").
Proof.
  assert (Hin : ("track", ("Track", "arrow.left.arrow.right")) ∈ documentedPairs).
  { unfold documentedPairs. rewrite !elem_of_cons. tauto. }
  assert (Hout : "profile" ∉ knownRoutes).
  { unfold knownRoutes. rewrite !not_elem_of_cons.
    repeat split; try discriminate. apply not_elem_of_nil. }
  split; [exact Hin |].
  split; [exact (proj1 (C1_mapper_pairs "track") _ Hin) |].
  split; [exact Hout |].
  exact (proj2 (C1_mapper_pairs "profile") Hout).
Defined.

(** C9: for any route key outside the five known keys, [getTabLabel]
    returns the key itself, unchanged: an unknown route is labelled with
    its raw key, not with ["Home"]. *)
Theorem C9_getTabLabel_unknown_is_identity (k : string) :
  k ∉ knownRoutes -> getTabLabel k = k.
Proof. apply getTabLabel_default. Qed.

Lemma C9_getTabLabel_unknown_is_identity_witness :
  ("explore" ∉ knownRoutes) /\ getTabLabel "explore" = "explore".
Proof.
  assert (Hout : "explore" ∉ knownRoutes).
  { unfold knownRoutes. rewrite !not_elem_of_cons.
    repeat split; try discriminate. apply not_elem_of_nil. }
  split; [exact Hout |].
  exact (C9_getTabLabel_unknown_is_identity "explore" Hout).
Defined.

(** ** Pressing a tab *)

Section Press.

Variable host : Host.
Variable props : BottomTabBarProps.

(** The item rendered at a position is the one of the route there, and
    its [onPress] closes over that route, its position and its focus. *)
Lemma press_item (i : nat) (r : Route) :
  routes (state props) !! i = Some r ->
  press (CustomTabBar host props) i
  = Some (handleTabPress host props r i
            (Nat.eqb (Nav.index (state props)) i)).
Proof.
  intros Hr. unfold press, CustomTabBar. simpl.
  rewrite list_lookup_imap, Hr. reflexivity.
Qed.

(** The calls of one [handleTabPress], in order. *)
Lemma handleTabPress_calls (r : Route) (i : nat) (isFocused : bool) :
  calls (handleTabPress host props r i isFocused)
  = (if EXPO_OS_is_ios host then
       [HapticsImpactAsync (if Nat.eqb i 2 then Haptics.Medium else Haptics.Light)]
     else [])
    ++ NavigationEmit (tabPressEvent r)
    :: (if negb isFocused
           && negb (defaultPrevented (listeners (navigation props) (tabPressEvent r)))
        then [NavigationNavigate (name r) (params r)]
        else []).
Proof.
  unfold handleTabPress, tabPressEvent.
  destruct (EXPO_OS_is_ios host), isFocused; cbn; try reflexivity;
    destruct (defaultPrevented _); reflexivity.
Qed.

Lemma handleTabPress_navigateRequests (r : Route) (i : nat) (isFocused : bool) :
  navigateRequests (calls (handleTabPress host props r i isFocused))
  = if negb isFocused
       && negb (defaultPrevented (listeners (navigation props) (tabPressEvent r)))
    then [(name r, params r)] else [].
Proof.
  rewrite handleTabPress_calls.
  destruct (EXPO_OS_is_ios host); destruct (negb isFocused && _); reflexivity.
Qed.

Lemma handleTabPress_emittedEvents (r : Route) (i : nat) (isFocused : bool) :
  emittedEvents (calls (handleTabPress host props r i isFocused))
  = [tabPressEvent r].
Proof.
  rewrite handleTabPress_calls.
  destruct (EXPO_OS_is_ios host); destruct (negb isFocused && _); reflexivity.
Qed.

Lemma handleTabPress_hapticPulses (r : Route) (i : nat) (isFocused : bool) :
  hapticPulses (calls (handleTabPress host props r i isFocused))
  = if EXPO_OS_is_ios host then
      [if Nat.eqb i 2 then Haptics.Medium else Haptics.Light]
    else [].
Proof.
  rewrite handleTabPress_calls.
  destruct (EXPO_OS_is_ios host); destruct (negb isFocused && _); reflexivity.
Qed.

End Press.

(** C2: pressing the item at an index [i] other than the active one,
    when the listeners do not veto the emitted tab-press event, issues
    exactly one navigation-switch request: to the name of the route at
    [i], with that route's params as they are. *)
Theorem C2_press_other_tab_navigates_once
  (host : Host) (props : BottomTabBarProps) (i : nat) (r : Route) :
  routes (state props) !! i = Some r ->
  i <> Nav.index (state props) ->
  defaultPrevented (listeners (navigation props) (tabPressEvent r)) = false ->
  exists run : M unit,
    press (CustomTabBar host props) i = Some run
    /\ emittedEvents (calls run) = [tabPressEvent r]
    /\ navigateRequests (calls run) = [(name r, params r)].
Proof.
  intros Hr Hi Hveto. eexists. split; [apply press_item, Hr |].
  split; [apply handleTabPress_emittedEvents |].
  rewrite handleTabPress_navigateRequests, Hveto.
  replace (Nat.eqb (Nav.index (state props)) i) with false; [reflexivity |].
  symmetry. apply Nat.eqb_neq. congruence.
Qed.

Lemma C2_press_other_tab_navigates_once_witness :
  exists run : M unit,
    press (CustomTabBar iosHost (propsOf permissive 0 fiveRoutes)) 2 = Some run
    /\ emittedEvents (calls run) = [tabPressEvent sendMoneyRoute]
    /\ navigateRequests (calls run)
       = [("send-money",
           JsObj [("amount", JsInt 25); ("currency", JsStr "EUR")])].
Proof.
  apply (C2_press_other_tab_navigates_once
           iosHost (propsOf permissive 0 fiveRoutes) 2 sendMoneyRoute).
  - reflexivity.
  - simpl. discriminate.
  - reflexivity.
Defined.

(** C3: when the listeners veto the tab-press event ([defaultPrevented]
    is set on the event handed back), a press issues no
    navigation-switch request, whatever the state and the index. *)
Theorem C3_vetoed_press_never_navigates
  (host : Host) (props : BottomTabBarProps) (i : nat) (r : Route) :
  routes (state props) !! i = Some r ->
  defaultPrevented (listeners (navigation props) (tabPressEvent r)) = true ->
  exists run : M unit,
    press (CustomTabBar host props) i = Some run
    /\ emittedEvents (calls run) = [tabPressEvent r]
    /\ navigateRequests (calls run) = [].
Proof.
  intros Hr Hveto. eexists. split; [apply press_item, Hr |].
  split; [apply handleTabPress_emittedEvents |].
  rewrite handleTabPress_navigateRequests, Hveto.
  rewrite andb_false_r. reflexivity.
Qed.

Lemma C3_vetoed_press_never_navigates_witness :
  exists run : M unit,
    press (CustomTabBar iosHost (propsOf vetoing 0 fiveRoutes)) 3 = Some run
    /\ emittedEvents (calls run) = [tabPressEvent trackRoute]
    /\ navigateRequests (calls run) = [].
Proof.
  apply (C3_vetoed_press_never_navigates
           iosHost (propsOf vetoing 0 fiveRoutes) 3 trackRoute).
  - reflexivity.
  - reflexivity.
Defined.

(** C4: pressing the item at the active index issues no
    navigation-switch request, vetoed or not. *)
Theorem C4_press_active_tab_never_navigates
  (host : Host) (props : BottomTabBarProps) (r : Route) :
  routes (state props) !! Nav.index (state props) = Some r ->
  exists run : M unit,
    press (CustomTabBar host props) (Nav.index (state props)) = Some run
    /\ navigateRequests (calls run) = [].
Proof.
  intros Hr. eexists. split; [apply press_item, Hr |].
  rewrite handleTabPress_navigateRequests, Nat.eqb_refl. reflexivity.
Qed.

Lemma C4_press_active_tab_never_navigates_witness :
  (exists run : M unit,
     press (CustomTabBar iosHost (propsOf permissive 1 fiveRoutes)) 1 = Some run
     /\ navigateRequests (calls run) = [])
  /\ (exists run : M unit,
        press (CustomTabBar androidHost (propsOf vetoing 4 fiveRoutes)) 4 = Some run
        /\ navigateRequests (calls run) = []).
Proof.
  split.
  - apply (C4_press_active_tab_never_navigates
             iosHost (propsOf permissive 1 fiveRoutes) recipientsRoute).
    reflexivity.
  - apply (C4_press_active_tab_never_navigates
             androidHost (propsOf vetoing 4 fiveRoutes) locationsRoute).
    reflexivity.
Defined.

(** C6: every press of an item, the active one included, emits exactly
    one event: of type ["tabPress"], cancelable, targeted at the key of
    the route at that index. It is emitted before any navigation-switch
    request: only haptic calls come before it, and only navigation
    requests after it. *)
Theorem C6_press_emits_one_cancelable_tabPress
  (host : Host) (props : BottomTabBarProps) (i : nat) (r : Route) :
  routes (state props) !! i = Some r ->
  exists run : M unit,
    press (CustomTabBar host props) i = Some run
    /\ emittedEvents (calls run)
       = [ {| type := "tabPress"; target := key r; canPreventDefault := true |} ]
    /\ exists before after : list Call,
         calls run
         = before
           ++ NavigationEmit
                {| type := "tabPress"; target := key r; canPreventDefault := true |}
           :: after
         /\ forallb isHaptic before = true
         /\ forallb isNavigate after = true.
Proof.
  intros Hr. eexists. split; [apply press_item, Hr |].
  split; [apply handleTabPress_emittedEvents |].
  rewrite handleTabPress_calls. do 2 eexists. split; [reflexivity |].
  split.
  - destruct (EXPO_OS_is_ios host); reflexivity.
  - destruct (negb _ && _); reflexivity.
Qed.

Lemma C6_press_emits_one_cancelable_tabPress_witness :
  exists run : M unit,
    press (CustomTabBar iosHost (propsOf permissive 2 fiveRoutes)) 2 = Some run
    /\ emittedEvents (calls run)
       = [ {| type := "tabPress"; target := "send-money-k3";
              canPreventDefault := true |} ]
    /\ exists before after : list Call,
         calls run
         = before
           ++ NavigationEmit
                {| type := "tabPress"; target := "send-money-k3";
                   canPreventDefault := true |}
           :: after
         /\ forallb isHaptic before = true
         /\ forallb isNavigate after = true.
Proof.
  apply (C6_press_emits_one_cancelable_tabPress
           iosHost (propsOf permissive 2 fiveRoutes) 2 sendMoneyRoute).
  reflexivity.
Defined.

(** Off iOS no haptic pulse is requested at all. *)
Lemma press_without_haptics
  (host : Host) (props : BottomTabBarProps) (i : nat) (r : Route) :
  routes (state props) !! i = Some r ->
  EXPO_OS_is_ios host = false ->
  exists run : M unit,
    press (CustomTabBar host props) i = Some run
    /\ hapticPulses (calls run) = [].
Proof.
  intros Hr Hos. eexists. split; [apply press_item, Hr |].
  rewrite handleTabPress_hapticPulses, Hos. reflexivity.
Qed.

(** The run of a press does not depend on how the haptics promises
    settle. *)
Lemma press_ignores_settlement
  (host : Host) (props : BottomTabBarProps) (i : nat)
  (settles : Haptics.ImpactFeedbackStyle -> Haptics.Settled) :
  press (CustomTabBar (withSettles host settles) props) i
  = press (CustomTabBar host props) i.
Proof.
  unfold press, CustomTabBar. simpl. rewrite !list_lookup_imap.
  destruct (routes (state props) !! i) as [r|]; reflexivity.
Qed.

(** C7: where haptics are in use ([process.env.EXPO_OS] is ["ios"]),
    every press requests exactly one haptic pulse, Medium at index 2 and
    Light at any other index; the promise it returns is dropped: however
    it settles, the press returns normally and makes the same calls. *)
Theorem C7_press_one_haptic_pulse_fire_and_forget
  (host : Host) (props : BottomTabBarProps) (i : nat) (r : Route) :
  routes (state props) !! i = Some r ->
  EXPO_OS host = Some "ios" ->
  exists run : M unit,
    press (CustomTabBar host props) i = Some run
    /\ hapticPulses (calls run)
       = [if Nat.eqb i 2 then Haptics.Medium else Haptics.Light]
    /\ forall settles : Haptics.ImpactFeedbackStyle -> Haptics.Settled,
         press (CustomTabBar (withSettles host settles) props) i = Some run.
Proof.
  intros Hr Hos. eexists. split; [apply press_item, Hr |].
  split.
  - rewrite handleTabPress_hapticPulses. unfold EXPO_OS_is_ios.
    rewrite Hos. reflexivity.
  - intros settles. rewrite press_ignores_settlement. apply press_item, Hr.
Qed.

Lemma C7_press_one_haptic_pulse_fire_and_forget_witness :
  (exists run : M unit,
     press (CustomTabBar iosHost (propsOf permissive 0 fiveRoutes)) 2 = Some run
     /\ hapticPulses (calls run) = [Haptics.Medium]
     /\ forall settles : Haptics.ImpactFeedbackStyle -> Haptics.Settled,
          press (CustomTabBar (withSettles iosHost settles)
                   (propsOf permissive 0 fiveRoutes)) 2 = Some run)
  /\ (exists run : M unit,
        press (CustomTabBar iosHost (propsOf permissive 0 fiveRoutes)) 4 = Some run
        /\ hapticPulses (calls run) = [Haptics.Light]
        /\ forall settles : Haptics.ImpactFeedbackStyle -> Haptics.Settled,
             press (CustomTabBar (withSettles iosHost settles)
                      (propsOf permissive 0 fiveRoutes)) 4 = Some run).
Proof.
  split.
  - apply (C7_press_one_haptic_pulse_fire_and_forget
             iosHost (propsOf permissive 0 fiveRoutes) 2 sendMoneyRoute);
      reflexivity.
  - apply (C7_press_one_haptic_pulse_fire_and_forget
             iosHost (propsOf permissive 0 fiveRoutes) 4 locationsRoute);
      reflexivity.
Defined.

(** ** Rendering *)

Lemma isElevated_renderTabItem
  (host : Host) (props : BottomTabBarProps) (i : nat) (r : Route) :
  isElevated (ColorTable.primaryOrange (colors host))
    (renderTabItem host props i r)
  = Nat.eqb i 2.
Proof.
  unfold isElevated, renderTabItem. destruct (Nat.eqb i 2); simpl.
  - rewrite String.eqb_refl. reflexivity.
  - reflexivity.
Qed.

Lemma elevatedPositions_CustomTabBar (host : Host) (props : BottomTabBarProps) :
  elevatedPositions (ColorTable.primaryOrange (colors host))
    (CustomTabBar host props)
  = List.filter (fun i => Nat.eqb i 2) (seq 0 (length (routes (state props)))).
Proof.
  unfold elevatedPositions, CustomTabBar. simpl. rewrite length_imap.
  apply List.filter_ext_in. intros i [_ Hi]%in_seq.
  rewrite list_lookup_imap.
  destruct (lookup_lt_is_Some_2 (routes (state props)) i Hi) as [r Hr].
  rewrite Hr. simpl. apply isElevated_renderTabItem.
Qed.

Lemma filter_two_above (start len : nat) :
  2 < start -> List.filter (fun i => Nat.eqb i 2) (seq start len) = [].
Proof.
  revert start. induction len as [|len IH]; intros start Hs; simpl.
  - reflexivity.
  - replace (Nat.eqb start 2) with false
      by (symmetry; apply Nat.eqb_neq; lia).
    apply IH. lia.
Qed.

Lemma filter_two_seq (n : nat) :
  List.filter (fun i => Nat.eqb i 2) (seq 0 n) = if Nat.ltb 2 n then [2] else [].
Proof.
  destruct n as [|[|[|n]]]; try reflexivity.
  simpl. rewrite filter_two_above by lia. reflexivity.
Qed.

Lemma renderTabItem_neutral
  (host : Host) (props : BottomTabBarProps) (i : nat) (r : Route) :
  i <> 2 ->
  isNeutral (colors host) (Nat.eqb (Nav.index (state props)) i)
    (renderTabItem host props i r).
Proof.
  intros Hi. unfold isNeutral, renderTabItem.
  replace (Nat.eqb i 2) with false by (symmetry; apply Nat.eqb_neq; exact Hi).
  simpl. repeat split; reflexivity.
Qed.

(** C5, as stated, fails: with a route list of two routes the bar has
    two items and none of them is elevated. *)
Lemma C5_two_routes_none_elevated :
  let bar := CustomTabBar iosHost (propsOf permissive 0 twoRoutes) in
  length (bar_items bar) = 2
  /\ elevatedPositions (ColorTable.primaryOrange (colors iosHost)) bar = []
  /\ length (elevatedPositions (ColorTable.primaryOrange (colors iosHost)) bar)
     <> 1.
Proof.
  simpl. split; [reflexivity |]. split; [reflexivity |]. discriminate.
Qed.

(** C5, amended: for all render states whose route list has at least
    three routes, whatever the active index, exactly one rendered item
    is elevated, the one at index 2: its style lists [styles.centerButton]
    (with the upward offset [marginTop: -8]) and its icon sits in the
    56 by 56 [styles.centerButtonContainer] of radius 28 filled with
    [primaryOrange]. Every other item has the neutral icon-plus-label
    layout, coloured [tabIconSelected] when active and [tabIconDefault]
    when not. Changing the active index changes nothing to which item
    is elevated. *)
Theorem C5_only_index_two_is_elevated
  (host : Host) (props : BottomTabBarProps) :
  2 < length (routes (state props)) ->
  let bar := CustomTabBar host props in
  let accent := ColorTable.primaryOrange (colors host) in
  elevatedPositions accent bar = [2]
  /\ (forall (i : nat) (item : TouchableOpacity),
        bar_items bar !! i = Some item -> i <> 2 ->
        isElevated accent item = false
        /\ isNeutral (colors host) (Nat.eqb (Nav.index (state props)) i) item)
  /\ (forall active : nat,
        elevatedPositions accent (CustomTabBar host (withActive props active))
        = elevatedPositions accent bar)
  /\ declared (styles (Platform_OS host) centerButton) "marginTop"
     = Some (JsInt (-8))
  /\ declared (styles (Platform_OS host) centerButtonContainer) "width"
     = Some (JsInt 56)
  /\ declared (styles (Platform_OS host) centerButtonContainer) "height"
     = Some (JsInt 56)
  /\ declared (styles (Platform_OS host) centerButtonContainer) "borderRadius"
     = Some (JsInt 28).
Proof.
  intros Hlen bar accent. subst bar accent.
  split.
  { rewrite elevatedPositions_CustomTabBar, filter_two_seq.
    apply Nat.ltb_lt in Hlen. rewrite Hlen. reflexivity. }
  split.
  { intros i item Hitem Hi. unfold CustomTabBar in Hitem. simpl in Hitem.
    rewrite list_lookup_imap in Hitem.
    destruct (routes (state props) !! i) as [r|]; [| discriminate].
    simpl in Hitem. injection Hitem as <-. split.
    - rewrite isElevated_renderTabItem. apply Nat.eqb_neq, Hi.
    - apply renderTabItem_neutral, Hi. }
  split.
  { intros active. rewrite !elevatedPositions_CustomTabBar. reflexivity. }
  repeat split; reflexivity.
Qed.

Lemma C5_only_index_two_is_elevated_witness :
  2 < length fiveRoutes
  /\ elevatedPositions (ColorTable.primaryOrange (colors iosHost))
       (CustomTabBar iosHost (propsOf permissive 0 fiveRoutes))
     = [2].
Proof.
  assert (Hlen : 2 < length (routes (state (propsOf permissive 0 fiveRoutes)))).
  { simpl. repeat constructor. }
  split; [exact Hlen |].
  exact (proj1 (C5_only_index_two_is_elevated
                  iosHost (propsOf permissive 0 fiveRoutes) Hlen)).
Defined.

(** ** The layout and the palette *)

(** C8: the layout declares exactly five screens, in the order
    ["index"], ["recipients"], ["send-money"], ["track"], ["locations"];
    each screen element has a [name] and an [options] prop and no other,
    and its options are a [title] and a [tabBarLabel] and nothing else. *)
Theorem C8_layout_registers_five_screens (host : Host) :
  let screens := Layout.children (Layout.TabLayout host) in
  length screens = 5
  /\ map (fun screen => declared screen "name") screens
     = [ Some (JsStr "index"); Some (JsStr "recipients");
         Some (JsStr "send-money"); Some (JsStr "track");
         Some (JsStr "locations") ]
  /\ map (map fst) screens = replicate 5 ["name"; "options"]
  /\ map optionKeys screens = replicate 5 (Some ["title"; "tabBarLabel"])
  /\ map (fun screen => declared screen "options") screens
     = map (fun k => Some (JsObj [ ("title", JsStr (getTabLabel k));
                                   ("tabBarLabel", JsStr (getTabLabel k)) ]))
         knownRoutes.
Proof. simpl. repeat split; reflexivity. Qed.

(** C10: when [useColorScheme] returns [null] or [undefined], the tab
    bar takes its colours from the light palette and the layout takes
    its two tint colours from the light palette; and for every result
    of the hook the palette looked up is one of the two of the table. *)
Theorem C10_missing_scheme_falls_back_to_light (host : Host) :
  (colors host = ColorTable.Colors ColorTable.light
   \/ colors host = ColorTable.Colors ColorTable.dark)
  /\ (useColorScheme host = IsNull \/ useColorScheme host = IsUndefined ->
      colors host = ColorTable.Colors ColorTable.light
      /\ forall props : BottomTabBarProps,
           bar_style (CustomTabBar host props)
           = [ FromSheet tabBar;
               Inline [("backgroundColor",
                        JsStr (ColorTable.tabBarBackground
                                 (ColorTable.Colors ColorTable.light)))] ])
  /\ (useColorScheme host = IsNull \/ useColorScheme host = IsUndefined ->
      Layout.screenOptions (Layout.TabLayout host)
      = [ ("headerShown", JsBool false);
          ("tabBarActiveTintColor",
           JsStr (ColorTable.tabIconSelected
                    (ColorTable.Colors ColorTable.light)));
          ("tabBarInactiveTintColor",
           JsStr (ColorTable.tabIconDefault
                    (ColorTable.Colors ColorTable.light))) ]).
Proof.
  unfold colors, colorScheme, CustomTabBar, Layout.TabLayout, colors, colorScheme.
  simpl. split; [| split].
  - destruct (useColorScheme host) as [| |[|]]; simpl; auto.
  - intros [E|E]; rewrite E; simpl; split; reflexivity.
  - intros [E|E]; rewrite E; reflexivity.
Qed.

Lemma C10_missing_scheme_falls_back_to_light_witness :
  useColorScheme androidHost = IsNull
  /\ colors androidHost = ColorTable.Colors ColorTable.light
  /\ Layout.screenOptions (Layout.TabLayout androidHost)
     = [ ("headerShown", JsBool false);
         ("tabBarActiveTintColor", JsStr "#000000");
         ("tabBarInactiveTintColor", JsStr "#8E8E93") ].
Proof.
  assert (H : useColorScheme androidHost = IsNull
              \/ useColorScheme androidHost = IsUndefined).
  { left. reflexivity. }
  split; [reflexivity |].
  split.
  - exact (proj1 (proj1 (proj2 (C10_missing_scheme_falls_back_to_light
                                  androidHost)) H)).
  - exact (proj2 (proj2 (C10_missing_scheme_falls_back_to_light
                           androidHost)) H).
Defined.

(** ** More on the rendered bar *)

Lemma map_imap_pointwise {A B C : Type}
  (f : B -> C) (g : nat -> A -> B) (h : A -> C) (l : list A) :
  (forall i x, f (g i x) = h x) -> map f (imap g l) = map h l.
Proof.
  revert g. induction l as [|x l IH]; intros g Hfg; simpl.
  - reflexivity.
  - rewrite Hfg. f_equal. apply IH. intros i y. apply Hfg.
Qed.

Lemma filter_eq_seq (k start len : nat) :
  List.filter (fun i => Nat.eqb k i) (seq start len)
  = if Nat.leb start k && Nat.ltb k (start + len) then [k] else [].
Proof.
  revert start. induction len as [|len IH]; intros start; simpl.
  - destruct (Nat.leb_spec start k), (Nat.ltb_spec k (start + 0));
      simpl; try reflexivity; lia.
  - rewrite IH. destruct (Nat.eqb_spec k start) as [->|Hne].
    + replace (Nat.leb (S start) start) with false
        by (symmetry; apply Nat.leb_gt; lia).
      rewrite Nat.leb_refl.
      replace (Nat.ltb start (start + S len)) with true
        by (symmetry; apply Nat.ltb_lt; lia).
      reflexivity.
    + replace (start + S len) with (S start + len) by lia.
      destruct (Nat.leb_spec (S start) k), (Nat.leb_spec start k);
        try reflexivity; lia.
Qed.

(** The bar has one item per route, in the order of the routes: the
    item keys are the route keys, the labels shown are [getTabLabel] of
    the route names and the icons are [getIconName] of the route names. *)
Theorem bar_items_follow_routes (host : Host) (props : BottomTabBarProps) :
  let bar := CustomTabBar host props in
  let rs := routes (state props) in
  length (bar_items bar) = length rs
  /\ map item_key (bar_items bar) = map key rs
  /\ map (fun item => label_children (item_label item)) (bar_items bar)
     = map (fun r => getTabLabel (name r)) rs
  /\ map (fun item => icon_name (iconView_child (item_icon item))) (bar_items bar)
     = map (fun r => getIconName (name r)) rs.
Proof.
  unfold CustomTabBar. simpl. split; [apply length_imap |].
  split; [| split]; apply map_imap_pointwise; intros i r;
    unfold renderTabItem; simpl; try reflexivity.
  destruct (Nat.eqb i 2); reflexivity.
Qed.

(** Exactly the item at the active index is marked selected; when the
    active index is past the end of the route list, no item is. *)
Theorem selected_item_is_the_active_one (host : Host) (props : BottomTabBarProps) :
  selectedPositions (CustomTabBar host props)
  = if Nat.ltb (Nav.index (state props)) (length (routes (state props)))
    then [Nav.index (state props)] else [].
Proof.
  unfold selectedPositions, CustomTabBar. simpl. rewrite length_imap.
  rewrite <- (Nat.add_0_l (length (routes (state props)))) at 2.
  change (Nat.ltb (Nav.index (state props)) (0 + length (routes (state props))))
    with (Nat.leb 0 (Nav.index (state props))
          && Nat.ltb (Nav.index (state props)) (0 + length (routes (state props)))).
  rewrite <- filter_eq_seq.
  apply List.filter_ext_in. intros i [_ Hi]%in_seq.
  rewrite list_lookup_imap.
  destruct (lookup_lt_is_Some_2 (routes (state props)) i Hi) as [r Hr].
  rewrite Hr. reflexivity.
Qed.

(** Every item is an accessible button whose accessibility label is the
    label it shows followed by [" tab"], and whose selected flag says
    whether its position is the active index. *)
Theorem items_are_labelled_buttons
  (host : Host) (props : BottomTabBarProps) (i : nat) (item : TouchableOpacity) :
  bar_items (CustomTabBar host props) !! i = Some item ->
  accessible item = true
  /\ accessibilityRole item = "button"
  /\ accessibilityLabel item
     = (label_children (item_label item) ++ " tab")%string
  /\ accessibilityState_selected item = Nat.eqb (Nav.index (state props)) i.
Proof.
  unfold CustomTabBar. simpl. rewrite list_lookup_imap.
  destruct (routes (state props) !! i) as [r|]; [| discriminate].
  simpl. intros [= <-]. repeat split; reflexivity.
Qed.

Lemma items_are_labelled_buttons_witness :
  exists item : TouchableOpacity,
    bar_items (CustomTabBar iosHost (propsOf permissive 3 fiveRoutes)) !! 3
    = Some item
    /\ accessibilityLabel item = "Track tab"
    /\ accessibilityState_selected item = true.
Proof.
  eexists. split; [reflexivity |].
  pose proof (items_are_labelled_buttons
                iosHost (propsOf permissive 3 fiveRoutes) 3 _ eq_refl)
    as (_ & _ & Hlabel & Hsel).
  split; [exact Hlabel | exact Hsel].
Defined.

(** The bar does not read the descriptor registry: whatever titles and
    tab labels the descriptors carry, the rendered bar is the same. *)
Theorem bar_ignores_descriptors
  (host : Host) (props : BottomTabBarProps) (ds : list (string * Descriptor)) :
  CustomTabBar host (withDescriptors props ds) = CustomTabBar host props.
Proof. reflexivity. Qed.

(** The item at index 2 looks the same whichever index is active, its
    own included: a white icon on the accent colour and a label in
    [tabIconSelected]. *)
Theorem centre_item_look_ignores_focus
  (host : Host) (props : BottomTabBarProps) (active : nat)
  (item item' : TouchableOpacity) :
  bar_items (CustomTabBar host props) !! 2 = Some item ->
  bar_items (CustomTabBar host (withActive props active)) !! 2 = Some item' ->
  look item' = look item
  /\ icon_color (iconView_child (item_icon item)) = "#FFFFFF"
  /\ label_style (item_label item)
     = [ FromSheet tabLabel;
         Inline [("color", JsStr (ColorTable.tabIconSelected (colors host)))];
         FromSheet centerButtonLabel ].
Proof.
  unfold CustomTabBar. simpl. rewrite !list_lookup_imap.
  destruct (routes (state props) !! 2) as [r|]; [| discriminate].
  simpl. intros [= <-] [= <-]. repeat split; reflexivity.
Qed.

Lemma centre_item_look_ignores_focus_witness :
  exists item item' : TouchableOpacity,
    bar_items (CustomTabBar iosHost (propsOf permissive 0 fiveRoutes)) !! 2
    = Some item
    /\ bar_items (CustomTabBar iosHost (propsOf permissive 2 fiveRoutes)) !! 2
       = Some item'
    /\ look item' = look item.
Proof.
  do 2 eexists. split; [reflexivity |]. split; [reflexivity |].
  exact (proj1 (centre_item_look_ignores_focus
                  iosHost (propsOf permissive 0 fiveRoutes) 2 _ _
                  eq_refl eq_refl)).
Defined.

(** ** More on pressing *)

(** Whatever the state and the listeners, a press issues at most one
    navigation-switch request, and a request it issues is for the
    pressed route; a position past the end of the route list has no
    item to press. *)
Theorem press_navigates_to_pressed_route_only
  (host : Host) (props : BottomTabBarProps) (i : nat) :
  match press (CustomTabBar host props) i with
  | Some run =>
      exists r : Route,
        routes (state props) !! i = Some r
        /\ (navigateRequests (calls run) = []
            \/ navigateRequests (calls run) = [(name r, params r)])
  | None => length (routes (state props)) <= i
  end.
Proof.
  destruct (routes (state props) !! i) as [r|] eqn:Hr.
  - rewrite (press_item host props i r Hr). exists r. split; [reflexivity |].
    rewrite handleTabPress_navigateRequests.
    destruct (negb _ && _); auto.
  - unfold press, CustomTabBar. simpl. rewrite list_lookup_imap, Hr. simpl.
    apply lookup_ge_None, Hr.
Qed.

(** When [process.env.EXPO_OS] is anything but ["ios"], unset included,
    a press requests no haptic pulse: its calls are the emitted event
    and what follows it. *)
Theorem press_off_ios_has_no_haptics
  (host : Host) (props : BottomTabBarProps) (i : nat) (r : Route) :
  routes (state props) !! i = Some r ->
  EXPO_OS host <> Some "ios" ->
  exists run : M unit,
    press (CustomTabBar host props) i = Some run
    /\ hapticPulses (calls run) = []
    /\ exists after : list Call,
         calls run = NavigationEmit (tabPressEvent r) :: after.
Proof.
  intros Hr Hos. eexists. split; [apply press_item, Hr |].
  assert (Hgate : EXPO_OS_is_ios host = false).
  { unfold EXPO_OS_is_ios. destruct (EXPO_OS host) as [os|]; [| reflexivity].
    apply String.eqb_neq. congruence. }
  split.
  - rewrite handleTabPress_hapticPulses, Hgate. reflexivity.
  - rewrite handleTabPress_calls, Hgate. eexists. reflexivity.
Qed.

Lemma press_off_ios_has_no_haptics_witness :
  exists run : M unit,
    press (CustomTabBar androidHost (propsOf permissive 0 fiveRoutes)) 2
    = Some run
    /\ hapticPulses (calls run) = []
    /\ exists after : list Call,
         calls run = NavigationEmit (tabPressEvent sendMoneyRoute) :: after.
Proof.
  apply (press_off_ios_has_no_haptics
           androidHost (propsOf permissive 0 fiveRoutes) 2 sendMoneyRoute).
  - reflexivity.
  - discriminate.
Defined.

(** The host decides the haptic pulse and nothing else: for the same
    props and position, two hosts give presses with the same calls once
    the haptic pulses are left out. *)
Theorem press_depends_on_host_for_haptics_only
  (host host' : Host) (props : BottomTabBarProps) (i : nat) :
  (fun run : M unit => nonHaptic (calls run))
    <$> press (CustomTabBar host props) i
  = (fun run : M unit => nonHaptic (calls run))
      <$> press (CustomTabBar host' props) i.
Proof.
  destruct (routes (state props) !! i) as [r|] eqn:Hr.
  - rewrite !(press_item _ props i r Hr).
    cbv [fmap option_fmap option_map]. f_equal.
    rewrite !handleTabPress_calls.
    destruct (EXPO_OS_is_ios host), (EXPO_OS_is_ios host'),
      (negb _ && _); reflexivity.
  - unfold press, CustomTabBar. simpl. rewrite !list_lookup_imap, Hr.
    reflexivity.
Qed.

(** ** More on the mapper *)

(** Whatever the route name, the icon is one of the five tab icons. *)
Theorem getIconName_is_a_tab_icon (k : string) : getIconName k ∈ tabIcons.
Proof.
  unfold getIconName, tabIcons.
  repeat match goal with
         | |- context [String.eqb k ?s] => destruct (String.eqb k s)
         end;
    rewrite !elem_of_cons; tauto.
Qed.

(** The five known routes have five different icons and five different
    labels. *)
Theorem known_routes_are_told_apart (k1 k2 : string) :
  k1 ∈ knownRoutes -> k2 ∈ knownRoutes ->
  getIconName k1 = getIconName k2 \/ getTabLabel k1 = getTabLabel k2 ->
  k1 = k2.
Proof.
  unfold knownRoutes. rewrite !elem_of_cons, !elem_of_nil.
  intros [->|[->|[->|[->|[->|[]]]]]] [->|[->|[->|[->|[->|[]]]]]];
    try reflexivity; intros [E|E]; discriminate E.
Qed.

Lemma known_routes_are_told_apart_witness :
  ("track" ∈ knownRoutes)
  /\ getIconName "track" = "arrow.left.arrow.right"
  /\ "track" = "track".
Proof.
  assert (Hin : "track" ∈ knownRoutes).
  { unfold knownRoutes. rewrite !elem_of_cons. tauto. }
  split; [exact Hin |]. split; [reflexivity |].
  exact (known_routes_are_told_apart "track" "track" Hin Hin
           (or_introl eq_refl)).
Defined.

(** The label is blank for the empty route name and for no other. *)
Theorem getTabLabel_blank_only_for_blank (k : string) :
  getTabLabel k = "" <-> k = "".
Proof.
  split.
  - unfold getTabLabel.
    repeat match goal with
           | |- context [String.eqb k ?s] => destruct (String.eqb k s)
           end; try discriminate. tauto.
  - intros ->. reflexivity.
Qed.

(** ** The layout and the bar together *)

(** When the routes of the state are the screens the layout declares,
    in that order, the bar the layout installs shows for each route the
    [tabBarLabel] the layout declares for it, gives the five routes the
    five tab icons, and elevates one item, the one labelled
    ["Send Money"]. *)
Theorem layout_bar_shows_declared_labels
  (host : Host) (props : BottomTabBarProps) :
  map name (routes (state props)) = screenNames (Layout.TabLayout host) ->
  let bar := Layout.tabBar (Layout.TabLayout host) props in
  map (fun item => Some (label_children (item_label item))) (bar_items bar)
  = map (fun screen => screenOption screen "tabBarLabel")
      (Layout.children (Layout.TabLayout host))
  /\ map (fun item => icon_name (iconView_child (item_icon item))) (bar_items bar)
     = tabIcons
  /\ elevatedPositions (ColorTable.primaryOrange (colors host)) bar = [2]
  /\ (fun item => label_children (item_label item)) <$> bar_items bar !! 2
     = Some "Send Money".
Proof.
  intros Hnames bar. subst bar.
  change (screenNames (Layout.TabLayout host)) with knownRoutes in Hnames.
  change (Layout.tabBar (Layout.TabLayout host) props)
    with (CustomTabBar host props).
  rewrite elevatedPositions_CustomTabBar.
  unfold CustomTabBar. simpl bar_items.
  destruct (routes (state props)) as [|[k0 n0 p0] [|[k1 n1 p1] [|[k2 n2 p2]
    [|[k3 n3 p3] [|[k4 n4 p4] [|]]]]]]; try discriminate Hnames.
  simpl in Hnames. injection Hnames as -> -> -> -> ->.
  repeat split; reflexivity.
Qed.

Lemma layout_bar_shows_declared_labels_witness :
  map name fiveRoutes = screenNames (Layout.TabLayout iosHost)
  /\ map (fun item => label_children (item_label item))
       (bar_items (Layout.tabBar (Layout.TabLayout iosHost)
                     (propsOf permissive 0 fiveRoutes)))
     = ["Home"; "Recipients"; "Send Money"; "Track"; "Locations"]
  /\ elevatedPositions (ColorTable.primaryOrange (colors iosHost))
       (Layout.tabBar (Layout.TabLayout iosHost)
          (propsOf permissive 0 fiveRoutes))
     = [2].
Proof.
  split; [reflexivity |].
  pose proof (layout_bar_shows_declared_labels
                iosHost (propsOf permissive 0 fiveRoutes) eq_refl)
    as (_ & _ & Hel & _).
  split; [reflexivity | exact Hel].
Defined.

(** The tint colours the layout declares are the ones the bar paints
    with: the icon of an item other than the centre one has the
    layout's active tint when the item is selected and its inactive
    tint when it is not, in every colour scheme. *)
Theorem layout_tints_are_the_bar_tints
  (host : Host) (props : BottomTabBarProps) (i : nat) (item : TouchableOpacity) :
  bar_items (Layout.tabBar (Layout.TabLayout host) props) !! i = Some item ->
  i <> 2 ->
  declared (Layout.screenOptions (Layout.TabLayout host))
    (if accessibilityState_selected item then "tabBarActiveTintColor"
     else "tabBarInactiveTintColor")
  = Some (JsStr (icon_color (iconView_child (item_icon item)))).
Proof.
  change (Layout.tabBar (Layout.TabLayout host) props)
    with (CustomTabBar host props).
  unfold CustomTabBar. simpl. rewrite list_lookup_imap.
  destruct (routes (state props) !! i) as [r|]; [| discriminate].
  simpl. intros [= <-] Hi%Nat.eqb_neq. unfold renderTabItem. rewrite Hi. simpl.
  destruct (Nat.eqb (Nav.index (state props)) i); reflexivity.
Qed.

Lemma layout_tints_are_the_bar_tints_witness :
  exists item : TouchableOpacity,
    bar_items (Layout.tabBar (Layout.TabLayout iosHost)
                 (propsOf permissive 1 fiveRoutes)) !! 1 = Some item
    /\ declared (Layout.screenOptions (Layout.TabLayout iosHost))
         "tabBarActiveTintColor"
       = Some (JsStr (icon_color (iconView_child (item_icon item)))).
Proof.
  eexists. split; [reflexivity |].
  apply (layout_tints_are_the_bar_tints
           iosHost (propsOf permissive 1 fiveRoutes) 1 _ eq_refl).
  discriminate.
Defined.

(** In every colour scheme, a missing one included, the selected tint,
    the default tint and the bar background are three different
    colours, and the accent colour is ["#FF6B35"], not the white of the
    centre icon. *)
Theorem bar_colours_stay_apart (host : Host) :
  let c := colors host in
  ColorTable.tabIconSelected c <> ColorTable.tabIconDefault c
  /\ ColorTable.tabIconSelected c <> ColorTable.tabBarBackground c
  /\ ColorTable.tabIconDefault c <> ColorTable.tabBarBackground c
  /\ ColorTable.primaryOrange c = "#FF6B35"
  /\ ColorTable.primaryOrange c <> "#FFFFFF".
Proof.
  unfold colors, colorScheme.
  destruct (useColorScheme host) as [| |[|]]; simpl;
    repeat split; discriminate.
Qed.

(** ** The style sheet *)

(** On every platform each entry of the style sheet declares a property
    at most once: what [Platform.select] spreads in overrides nothing. *)
Theorem style_sheet_declares_each_property_once
  (os : PlatformOS) (n : StyleName) :
  NoDup (map fst (styles os n)).
Proof.
  destruct os, n; apply (bool_decide_unpack _); vm_compute; reflexivity.
Qed.

(** Shadows are declared on iOS only and elevation on Android only, in
    the two entries that use [Platform.select]; on any other platform
    neither is declared. *)
Theorem shadow_on_ios_elevation_on_android (os : PlatformOS) (n : StyleName) :
  (is_Some (declared (styles os n) "shadowColor")
   <-> os = ios /\ (n = tabBar \/ n = centerButtonContainer))
  /\ (is_Some (declared (styles os n) "elevation")
      <-> os = android /\ (n = tabBar \/ n = centerButtonContainer)).
Proof.
  destruct os, n; cbn; split; split;
    solve [ intros [v Hv]; discriminate Hv
          | intros [Hos Hn]; try discriminate Hos;
            destruct Hn as [Hn|Hn]; discriminate Hn
          | intros _; split; [reflexivity | tauto]
          | intros _; eexists; reflexivity ].
Qed.

(** ** The placeholder screens *)

(** Each placeholder screen is headed by the label the bar shows for
    its route, which is also the title the layout declares for it. *)
Theorem screen_headings_match_tabs
  (host : Host) (route : string) (screen : Screens.Screen) :
  (route, screen) ∈ Screens.byRoute ->
  Screens.text_children (Screens.heading screen) = getTabLabel route
  /\ exists declaration : Layout.Props,
       declaration ∈ Layout.children (Layout.TabLayout host)
       /\ screenName declaration = Some route
       /\ screenOption declaration "title"
          = Some (Screens.text_children (Screens.heading screen)).
Proof.
  unfold Screens.byRoute. rewrite !elem_of_cons, elem_of_nil.
  intros [E|[E|[E|[E|[]]]]]; injection E as -> ->;
    (split; [reflexivity |]);
    [ exists (nth 1 (Layout.children (Layout.TabLayout host)) [])
    | exists (nth 2 (Layout.children (Layout.TabLayout host)) [])
    | exists (nth 3 (Layout.children (Layout.TabLayout host)) [])
    | exists (nth 4 (Layout.children (Layout.TabLayout host)) []) ];
    (split; [| split; reflexivity]); simpl;
    rewrite !elem_of_cons; tauto.
Qed.

Lemma screen_headings_match_tabs_witness :
  (("track", Screens.TrackScreen) ∈ Screens.byRoute)
  /\ Screens.text_children (Screens.heading Screens.TrackScreen)
     = getTabLabel "track".
Proof.
  assert (Hin : ("track", Screens.TrackScreen) ∈ Screens.byRoute).
  { unfold Screens.byRoute. rewrite !elem_of_cons. tauto. }
  split; [exact Hin |].
  exact (proj1 (screen_headings_match_tabs iosHost "track" _ Hin)).
Defined.
